(** * NoteProhibitService: the prohibited-note formula evaluator

    A shallow embedding of
    [packages/backend/src/core/NoteProhibitService.ts]: the gate
    [isProhibitedNote] and the recursive evaluator [evalcond], together
    with the properties of the evaluator that the design document states. *)

From Stdlib Require Import ZArith List String Bool Lia Permutation.
Import ListNotations.
Local Open Scope string_scope.
Local Open Scope list_scope.
Local Open Scope Z_scope.
Set Warnings "-register-all".

(** ** Completions

    A JavaScript expression either produces a value or throws.  The
    thrown value is never inspected by the service (both [catch] blocks
    ignore it), so an error only carries a message. *)

Inductive error : Type :=
| Error (message : string).

Inductive completion (A : Type) : Type :=
| Return (a : A)
| Throw (e : error).

Arguments Return {A} a.
Arguments Throw {A} e.

Definition bind {A B : Type} (c : completion A) (k : A -> completion B)
  : completion B :=
  match c with
  | Return a => k a
  | Throw e => Throw e
  end.

(** [try { c } catch (e) { handler e }] *)
Definition try_catch {A : Type} (c : completion A) (handler : error -> completion A)
  : completion A :=
  match c with
  | Return a => Return a
  | Throw e => handler e
  end.

Declare Scope completion_scope.
Delimit Scope completion_scope with completion.
Notation "x <- c ;; k" := (bind c (fun x => k))
  (at level 61, c at next level, right associativity) : completion_scope.
Local Open Scope completion_scope.

(** ** Array methods with a callback that may throw *)

Module JsArray.
Section Callbacks.
Context {A : Type}.
Variable callback : A -> completion bool.

(** [Array.prototype.every]: stops at the first falsy answer; a throwing
    callback aborts the traversal. *)
Fixpoint every (l : list A) : completion bool :=
  match l with
  | [] => Return true
  | v :: l' =>
      b <- callback v ;;
      if b then every l' else Return false
  end.

(** [Array.prototype.some]: stops at the first truthy answer. *)
Fixpoint some (l : list A) : completion bool :=
  match l with
  | [] => Return false
  | v :: l' =>
      b <- callback v ;;
      if b then Return true else some l'
  end.
End Callbacks.

Section Reduce.
Context {A B : Type}.
Variable callback : B -> A -> nat -> B.

Fixpoint reduce_from (n : nat) (l : list A) (v : B) : B :=
  match l with
  | [] => v
  | j :: l' => reduce_from (S n) l' (callback v j n)
  end.

(** [Array.prototype.reduce] with an initial value; the callback also
    receives the index. *)
Definition reduce (l : list A) (initial : B) : B := reduce_from 0%nat l initial.
End Reduce.
End JsArray.

(** ** Numbers that may be NaN

    The only place where the service can compute with [undefined] is the
    blurhash distance ([k[n]] past the end of [k]); the result of such an
    arithmetic operation is NaN, which compares false with everything. *)

Module JsNumber.
Definition number : Type := option Z.
Definition NaN : number := None.
Definition of_Z (z : Z) : number := Some z.

(** [v + w] *)
Definition add (v w : number) : number :=
  match v, w with
  | Some x, Some y => Some (x + y)
  | _, _ => NaN
  end.

(** [Math.abs(j - kn)] where [kn] is an array element or [undefined] *)
Definition abs_sub (j : Z) (kn : option Z) : number :=
  match kn with
  | Some x => Some (Z.abs (j - x))
  | None => NaN
  end.

(** [v <= bound] *)
Definition leb (v : number) (bound : Z) : bool :=
  match v with
  | Some x => x <=? bound
  | None => false
  end.
End JsNumber.

(** ** Data model

    Counts, byte sizes and thresholds are integers ([Z]); a [null] or
    [undefined] field is [None]. *)

Module MiNote.
Record t : Type := { id : string }.
End MiNote.

Module MiDriveFile.
Record t : Type := {
  size : Z;
  md5 : string;
  type : string;
  blurhash : option string
}.
End MiDriveFile.

Module MiUser.
Record t : Type := {
  id : string;
  username : string;
  name : option string
}.
End MiUser.

Module MiRole.
Record t : Type := { id : string }.
End MiRole.

Module Mention.
Record t : Type := {
  username : string;
  host : option string
}.
End Mention.

Record InspectionSubject : Type := {
  userId : string;
  text : option string;
  reply : option MiNote.t;
  renote : option MiNote.t;
  files : option (list MiDriveFile.t);
  mentions : list Mention.t;
  hashtags : list string
}.

(** [ProhibitedNoteFormulaValue]: one constructor per [case] label of the
    evaluator's [switch], carrying the fields that the case reads.
    [Other] stands for a node whose [type] is none of the labels
    ([None] is a [type] of [null]). *)
Inductive ProhibitedNoteFormulaValue : Type :=
| FTrue
| FFalse
| And (values : list ProhibitedNoteFormulaValue)
| Or (values : list ProhibitedNoteFormulaValue)
| Not (value : ProhibitedNoteFormulaValue)
| UsernameMatchOf (pattern : string)
| NameMatchOf (pattern : string)
| NameIsDefault
| RoleAssignedOf (roleId : string)
| HasText
| TextMatchOf (pattern : string)
| HasMentions
| MentionCountIs (value : Z)
| MentionCountMoreThanOrEq (value : Z)
| MentionCountLessThan (value : Z)
| IsReply
| IsQuoted
| HasFiles
| FileCountIs (value : Z)
| FileCountMoreThanOrEq (value : Z)
| FileCountLessThan (value : Z)
| FileTotalSizeMoreThanOrEq (size : Z)
| FileTotalSizeLessThan (size : Z)
| HasFileSizeMoreThanOrEq (size : Z)
| HasFileSizeLessThan (size : Z)
| HasFileMD5Is (hash : string)
| HasBrowserInsafe
| HasPictures
| HasLikelyBlurhash (hash : string) (diff : Z)
| HasHashtags
| HashtagCountIs (value : Z)
| HashtagCountMoreThanOrEq (value : Z)
| HashtagCountLessThan (value : Z)
| HasHashtagMatchOf (value : string)
| Other (type : option string).

(** [formula.type] *)
Definition formula_type (formula : ProhibitedNoteFormulaValue) : option string :=
  match formula with
  | FTrue => Some "true"
  | FFalse => Some "false"
  | And _ => Some "and"
  | Or _ => Some "or"
  | Not _ => Some "not"
  | UsernameMatchOf _ => Some "usernameMatchOf"
  | NameMatchOf _ => Some "nameMatchOf"
  | NameIsDefault => Some "nameIsDefault"
  | RoleAssignedOf _ => Some "roleAssignedOf"
  | HasText => Some "hasText"
  | TextMatchOf _ => Some "textMatchOf"
  | HasMentions => Some "hasMentions"
  | MentionCountIs _ => Some "mentionCountIs"
  | MentionCountMoreThanOrEq _ => Some "mentionCountMoreThanOrEq"
  | MentionCountLessThan _ => Some "mentionCountLessThan"
  | IsReply => Some "isReply"
  | IsQuoted => Some "isQuoted"
  | HasFiles => Some "hasFiles"
  | FileCountIs _ => Some "fileCountIs"
  | FileCountMoreThanOrEq _ => Some "fileCountMoreThanOrEq"
  | FileCountLessThan _ => Some "fileCountLessThan"
  | FileTotalSizeMoreThanOrEq _ => Some "fileTotalSizeMoreThanOrEq"
  | FileTotalSizeLessThan _ => Some "fileTotalSizeLessThan"
  | HasFileSizeMoreThanOrEq _ => Some "hasFileSizeMoreThanOrEq"
  | HasFileSizeLessThan _ => Some "hasFileSizeLessThan"
  | HasFileMD5Is _ => Some "hasFileMD5Is"
  | HasBrowserInsafe => Some "hasBrowserInsafe"
  | HasPictures => Some "hasPictures"
  | HasLikelyBlurhash _ _ => Some "hasLikelyBlurhash"
  | HasHashtags => Some "hasHashtags"
  | HashtagCountIs _ => Some "hashtagCountIs"
  | HashtagCountMoreThanOrEq _ => Some "hashtagCountMoreThanOrEq"
  | HashtagCountLessThan _ => Some "hashtagCountLessThan"
  | HasHashtagMatchOf _ => Some "hasHashtagMatchOf"
  | Other type => type
  end.

(** The [case] labels of the [switch] in [evalcond], in source order. *)
Definition case_labels : list string :=
  [ "true"; "false"; "and"; "or"; "not"; "usernameMatchOf"; "nameMatchOf";
    "nameIsDefault"; "roleAssignedOf"; "hasText"; "textMatchOf";
    "hasMentions"; "mentionCountIs"; "mentionCountMoreThanOrEq";
    "mentionCountLessThan"; "isReply"; "isQuoted"; "hasFiles";
    "fileCountIs"; "fileCountMoreThanOrEq"; "fileCountLessThan";
    "fileTotalSizeMoreThanOrEq"; "fileTotalSizeLessThan";
    "hasFileSizeMoreThanOrEq"; "hasFileSizeLessThan"; "hasFileMD5Is";
    "hasBrowserInsafe"; "hasPictures"; "hasLikelyBlurhash"; "hasHashtags";
    "hashtagCountIs"; "hashtagCountMoreThanOrEq"; "hashtagCountLessThan";
    "hasHashtagMatchOf" ].

(** A node is recognized when its [type] is one of the labels; the other
    nodes reach the [default] arm. *)
Definition recognized (formula : ProhibitedNoteFormulaValue) : bool :=
  match formula_type formula with
  | Some type => existsb (fun label => (type =? label)%string) case_labels
  | None => false
  end.

(** JavaScript truthiness of [formula.type]: [null] and the empty string
    are falsy, every other string is truthy. *)
Definition truthy (type : option string) : bool :=
  match type with
  | None => false
  | Some s => negb (s =? "")%string
  end.

(** [array.length] *)
Definition length {A : Type} (l : list A) : Z := Z.of_nat (List.length l).

(** ** Collaborators of the evaluator

    None of them is defined in this file of the repository: the keyword
    matcher is a method of the injected [UtilityService], [decode] comes
    from the [blurhash] package and [FILE_TYPE_BROWSERSAFE] from
    [const.ts].  Both functions may throw. *)

Record UtilityService : Type := {
  isKeyWordIncluded : string -> list string -> completion bool
}.

Record Blurhash : Type := {
  decode : string -> Z -> Z -> completion (list Z)
}.

Section Evaluator.
Variable utilityService : UtilityService.
Variable blurhashModule : Blurhash.
Variable FILE_TYPE_BROWSERSAFE : list string.

(** [decode(i, 5, 5).reduce((v, j, n) => v + Math.abs(j - k[n]), 0)] *)
Definition blurhash_distance (k d : list Z) : JsNumber.number :=
  JsArray.reduce
    (fun v j n => JsNumber.add v (JsNumber.abs_sub j (nth_error k n)))
    d (JsNumber.of_Z 0).

(** The callback of [h.some] in the [hasLikelyBlurhash] case, with its
    own [try]/[catch]. *)
Definition likely (k : list Z) (diff : Z) (i : string) : completion bool :=
  try_catch
    (d <- decode blurhashModule i 5 5 ;;
     Return (JsNumber.leb (blurhash_distance k d) diff))
    (fun _ => Return false).

Section TryBlock.
(** The recursive calls [this.evalcond(subject, user, roles, v)]. *)
Variable this_evalcond : ProhibitedNoteFormulaValue -> completion bool.
Variable subject : InspectionSubject.
Variable user : MiUser.t.
Variable roles : list MiRole.t.

(** The statement guarded by the outer [try] of [evalcond]: the
    [switch] on [formula.type]. *)
Definition evalcond_switch (formula : ProhibitedNoteFormulaValue)
  : completion bool :=
  match formula with
  | FTrue => Return true
  | FFalse => Return false
  | And values => JsArray.every (fun v => this_evalcond v) values
  | Or values => JsArray.some (fun v => this_evalcond v) values
  | Not value =>
      b <- this_evalcond value ;;
      Return (negb b)
  | UsernameMatchOf pattern =>
      isKeyWordIncluded utilityService (MiUser.username user) [pattern]
  | NameMatchOf pattern =>
      isKeyWordIncluded utilityService
        (match MiUser.name user with Some n => n | None => "" end) [pattern]
  | NameIsDefault =>
      Return
        (match MiUser.name user with
         | Some n =>
             if (n =? "")%string then true
             else (n =? MiUser.username user)%string
         | None => true
         end)
  | RoleAssignedOf roleId =>
      Return (existsb (fun r => (MiRole.id r =? roleId)%string) roles)
  | HasText =>
      Return (match text subject with Some _ => true | None => false end)
  | TextMatchOf pattern =>
      isKeyWordIncluded utilityService
        (match text subject with Some t => t | None => "" end) [pattern]
  | HasMentions =>
      Return
        (match reply subject with
         | Some _ => true
         | None => length (mentions subject) >? 0
         end)
  | MentionCountIs value => Return (length (mentions subject) =? value)
  | MentionCountMoreThanOrEq value =>
      Return (length (mentions subject) >=? value)
  | MentionCountLessThan value =>
      Return (length (mentions subject) <? value)
  | IsReply =>
      Return (match reply subject with Some _ => true | None => false end)
  | IsQuoted =>
      Return (match renote subject with Some _ => true | None => false end)
  | HasFiles =>
      Return
        (match files subject with
         | Some fs => length fs >? 0
         | None => false
         end)
  | FileCountIs value =>
      Return
        (match files subject with Some fs => length fs | None => 0 end
         =? value)
  | FileCountMoreThanOrEq value =>
      Return
        (match files subject with Some fs => length fs | None => 0 end
         >=? value)
  | FileCountLessThan value =>
      Return
        (match files subject with Some fs => length fs | None => 0 end
         <? value)
  | FileTotalSizeMoreThanOrEq size =>
      Return
        (match files subject with
         | Some fs => fold_left (fun p f => p + MiDriveFile.size f) fs 0
         | None => 0
         end >=? size)
  | FileTotalSizeLessThan size =>
      Return
        (match files subject with
         | Some fs => fold_left (fun p f => p + MiDriveFile.size f) fs 0
         | None => 0
         end <? size)
  | HasFileSizeMoreThanOrEq size =>
      Return
        (match files subject with
         | Some fs => existsb (fun f => MiDriveFile.size f >=? size) fs
         | None => false
         end)
  | HasFileSizeLessThan size =>
      Return
        (match files subject with
         | Some fs => existsb (fun f => MiDriveFile.size f <? size) fs
         | None => true
         end)
  | HasFileMD5Is hash =>
      Return
        (match files subject with
         | Some fs => existsb (fun f => (MiDriveFile.md5 f =? hash)%string) fs
         | None => false
         end)
  | HasBrowserInsafe =>
      Return
        (match files subject with
         | Some fs =>
             existsb
               (fun f =>
                  negb (existsb (fun t => (MiDriveFile.type f =? t)%string)
                          FILE_TYPE_BROWSERSAFE))
               fs
         | None => false
         end)
  | HasPictures =>
      Return
        (match files subject with
         | Some fs => existsb (fun f => prefix "image/" (MiDriveFile.type f)) fs
         | None => false
         end)
  | HasLikelyBlurhash hash diff =>
      try_catch
        (k <- decode blurhashModule hash 5 5 ;;
         let h :=
           map (fun f => match MiDriveFile.blurhash f with
                         | Some b => b
                         | None => ""
                         end)
             (filter (fun f => match MiDriveFile.blurhash f with
                               | Some _ => true
                               | None => false
                               end)
                (match files subject with Some fs => fs | None => [] end)) in
         JsArray.some (likely k diff) h)
        (fun _ => Return false)
  | HasHashtags => Return (length (hashtags subject) >? 0)
  | HashtagCountIs value => Return (length (hashtags subject) =? value)
  | HashtagCountMoreThanOrEq value =>
      Return (length (hashtags subject) >=? value)
  | HashtagCountLessThan value =>
      Return (length (hashtags subject) <? value)
  | HasHashtagMatchOf value =>
      JsArray.some
        (fun h => isKeyWordIncluded utilityService h [value])
        (hashtags subject)
  | Other _ => Return false
  end.
End TryBlock.

(** [private evalcond(subject, user, roles, formula): boolean]: the
    [switch] inside [try { ... } catch (err) { return false; }].  Every
    recursive call goes through the method itself, hence through its
    [try]/[catch]. *)
Fixpoint evalcond (subject : InspectionSubject) (user : MiUser.t)
    (roles : list MiRole.t) (formula : ProhibitedNoteFormulaValue)
    {struct formula} : completion bool :=
  try_catch
    (evalcond_switch (evalcond subject user roles) subject user roles formula)
    (fun _ => Return false).
End Evaluator.

(** ** The gate

    [isProhibitedNote] awaits three injected services.  A computation of
    the gate runs against the log of the service calls made so far and
    extends it, so that the calls a run makes can be read off. *)

Inductive Call : Type :=
| MetaService_fetch
| CacheService_findUserById (userId : string)
| RoleService_getUserRoles (userId : string).

Definition is_lookup (c : Call) : bool :=
  match c with
  | MetaService_fetch => false
  | CacheService_findUserById _ => true
  | RoleService_getUserRoles _ => true
  end.

Definition Async (A : Type) : Type := list Call -> completion A * list Call.

Definition resolve {A : Type} (a : A) : Async A := fun log => (Return a, log).

(** [await service.method(args)]: the call is recorded, its outcome is
    the outcome of the promise. *)
Definition await {A : Type} (call : Call) (outcome : completion A) : Async A :=
  fun log => (outcome, (log ++ [call])).

Definition then_ {A B : Type} (c : Async A) (k : A -> Async B) : Async B :=
  fun log =>
    match c log with
    | (Return a, log') => k a log'
    | (Throw e, log') => (Throw e, log')
    end.

Notation "x <~ c ;; k" := (then_ c (fun x => k))
  (at level 61, c at next level, right associativity) : completion_scope.

(** The part of [MiMeta] that the service reads. *)
Record MiMeta : Type := {
  prohibitedNotePattern : ProhibitedNoteFormulaValue
}.

Record MetaService : Type := {
  fetch : completion MiMeta
}.

Record CacheService : Type := {
  findUserById : string -> completion MiUser.t
}.

Record RoleService : Type := {
  getUserRoles : string -> completion (list MiRole.t)
}.

Section Gate.
Variable metaService : MetaService.
Variable cacheService : CacheService.
Variable roleService : RoleService.
Variable utilityService : UtilityService.
Variable blurhashModule : Blurhash.
Variable FILE_TYPE_BROWSERSAFE : list string.

(** [public async isProhibitedNote(subject): Promise<boolean>] *)
Definition isProhibitedNote (subject : InspectionSubject) : Async bool :=
  meta <~ await MetaService_fetch (fetch metaService) ;;
  let formula := prohibitedNotePattern meta in
  if truthy (formula_type formula) then
    user <~ await (CacheService_findUserById (userId subject))
              (findUserById cacheService (userId subject)) ;;
    roles <~ await (RoleService_getUserRoles (userId subject))
               (getUserRoles roleService (userId subject)) ;;
    fun log =>
      (evalcond utilityService blurhashModule FILE_TYPE_BROWSERSAFE
         subject user roles formula, log)
  else
    resolve false.
End Gate.

(** ** Concrete collaborators and inputs used in the examples *)

Module Examples.
(** A keyword matcher that always fails, as a mis-behaving collaborator. *)
Definition failingMatcher : UtilityService :=
  {| isKeyWordIncluded := fun _ _ => Throw (Error "matcher failed") |}.

(** A keyword matcher that looks for an exact match. *)
Definition exactMatcher : UtilityService :=
  {| isKeyWordIncluded := fun text keyWords =>
       Return (existsb (fun w => (text =? w)%string) keyWords) |}.

(** A decoder that knows two hashes and rejects every other string.
    Both grids have the same number of components. *)
Definition tableDecoder : Blurhash :=
  {| decode := fun hash _ _ =>
       if (hash =? "dark")%string then Return [0; 0; 0; 10]
       else if (hash =? "dim")%string then Return [1; 2; 0; 7]
       else Throw (Error "invalid blurhash") |}.

Definition safeTypes : list string := ["image/png"; "image/jpeg"].

Definition alice : MiUser.t :=
  {| MiUser.id := "u1"; MiUser.username := "alice"; MiUser.name := Some "" |}.

Definition file (size : Z) (blurhash : option string) : MiDriveFile.t :=
  {| MiDriveFile.size := size; MiDriveFile.md5 := "d41d8cd9";
     MiDriveFile.type := "image/png"; MiDriveFile.blurhash := blurhash |}.

Definition note (files : option (list MiDriveFile.t)) : InspectionSubject :=
  {| userId := "u1"; text := Some "hello"; reply := None; renote := None;
     files := files; mentions := []; hashtags := ["a"; "b"] |}.

(** A leaf whose evaluation calls the keyword matcher. *)
Definition spamLeaf : ProhibitedNoteFormulaValue := TextMatchOf "spam".

Definition unsetMeta : MetaService :=
  {| fetch := Return {| prohibitedNotePattern := Other None |} |}.

Definition noUsers : CacheService :=
  {| findUserById := fun _ => Throw (Error "no such user") |}.

Definition noRoles : RoleService :=
  {| getUserRoles := fun _ => Return [] |}.
End Examples.

(** ** Reference definitions for the blurhash comparison *)

(** The summed absolute per-component difference of two grids, in the
    words of the design document; compared below with
    [blurhash_distance], which is what the code computes. *)
Fixpoint summed_abs_difference (d k : list Z) : Z :=
  match d, k with
  | j :: d', kn :: k' => Z.abs (j - kn) + summed_abs_difference d' k'
  | _, _ => 0
  end.

(** [{ ...subject, files }] *)
Definition with_files (subject : InspectionSubject)
    (files : option (list MiDriveFile.t)) : InspectionSubject :=
  {| userId := userId subject; text := text subject; reply := reply subject;
     renote := renote subject; files := files; mentions := mentions subject;
     hashtags := hashtags subject |}.

(** [subject.files ?? []] *)
Definition files_or_empty (subject : InspectionSubject) : list MiDriveFile.t :=
  match files subject with Some fs => fs | None => [] end.

(** What one file contributes to [hasLikelyBlurhash] once the target hash
    has been decoded to [k]: nothing when it has no hash or when its hash
    does not decode. *)
Definition file_contributes (blurhashModule : Blurhash) (k : list Z) (diff : Z)
    (f : MiDriveFile.t) : bool :=
  match MiDriveFile.blurhash f with
  | Some b =>
      match decode blurhashModule b 5 5 with
      | Return d => JsNumber.leb (blurhash_distance k d) diff
      | Throw _ => false
      end
  | None => false
  end.

(** A decoder yields grids of one size for the fixed dimensions 5 x 5. *)
Definition fixed_grid (blurhashModule : Blurhash) : Prop :=
  forall s1 s2 a1 a2,
    decode blurhashModule s1 5 5 = Return a1 ->
    decode blurhashModule s2 5 5 = Return a2 ->
    List.length a1 = List.length a2.

(** The boolean a caller reads from a call that is known not to throw. *)
Definition verdict (c : completion bool) : bool :=
  match c with
  | Return b => b
  | Throw _ => false
  end.

(** ** The shape of a formula *)

(** The three kinds whose case calls [evalcond] again. *)
Definition structural (formula : ProhibitedNoteFormulaValue) : bool :=
  match formula with
  | And _ | Or _ | Not _ => true
  | _ => false
  end.

(** Every leaf of the formula satisfies [ok]. *)
Fixpoint leaves_all (ok : ProhibitedNoteFormulaValue -> bool)
    (formula : ProhibitedNoteFormulaValue) : bool :=
  match formula with
  | And values => forallb (leaves_all ok) values
  | Or values => forallb (leaves_all ok) values
  | Not value => leaves_all ok value
  | _ => ok formula
  end.

Definition not_hasFileSizeLessThan (formula : ProhibitedNoteFormulaValue)
  : bool :=
  match formula with
  | HasFileSizeLessThan _ => false
  | _ => true
  end.

(** [value != null] *)
Definition present {A : Type} (value : option A) : bool :=
  match value with
  | Some _ => true
  | None => false
  end.

Module MoreExamples.
(** A keyword matcher that fails on the text ["bad"] and otherwise looks
    for an exact match. *)
Definition pickyMatcher : UtilityService :=
  {| isKeyWordIncluded := fun text keyWords =>
       if (text =? "bad")%string then Throw (Error "matcher failed")
       else Return (existsb (fun w => (text =? w)%string) keyWords) |}.

Definition tagged (hashtags : list string) : InspectionSubject :=
  {| userId := "u1"; text := None; reply := None; renote := None;
     files := None; mentions := []; hashtags := hashtags |}.

Definition bob : MiUser.t :=
  {| MiUser.id := "u2"; MiUser.username := "bob"; MiUser.name := None |}.

Definition configured (formula : ProhibitedNoteFormulaValue) : MetaService :=
  {| fetch := Return {| prohibitedNotePattern := formula |} |}.

Definition downMeta : MetaService :=
  {| fetch := Throw (Error "meta unavailable") |}.

Definition oneUser : CacheService :=
  {| findUserById := fun _ => Return bob |}.

Definition downRoles : RoleService :=
  {| getUserRoles := fun _ => Throw (Error "roles unavailable") |}.
End MoreExamples.

(** * Properties *)

Section EvaluatorFacts.
Variable utilityService : UtilityService.
Variable blurhashModule : Blurhash.
Variable FILE_TYPE_BROWSERSAFE : list string.
Variable subject : InspectionSubject.
Variable user : MiUser.t.
Variable roles : list MiRole.t.

(** One step of the recursion: a call is its [switch] under [try]/[catch]. *)
Lemma evalcond_unfold (formula : ProhibitedNoteFormulaValue) :
  evalcond utilityService blurhashModule FILE_TYPE_BROWSERSAFE
    subject user roles formula
  = try_catch
      (evalcond_switch utilityService blurhashModule FILE_TYPE_BROWSERSAFE
         (evalcond utilityService blurhashModule FILE_TYPE_BROWSERSAFE
            subject user roles)
         subject user roles formula)
      (fun _ => Return false).
Proof. destruct formula; reflexivity. Qed.

Lemma try_catch_returns (c : completion bool) :
  exists b, try_catch c (fun _ => Return false) = Return b.
Proof. destruct c as [b | e]; [exists b | exists false]; reflexivity. Qed.

(** A call of [evalcond] never throws. *)
Lemma evalcond_returns (formula : ProhibitedNoteFormulaValue) :
  exists b,
    evalcond utilityService blurhashModule FILE_TYPE_BROWSERSAFE
      subject user roles formula = Return b.
Proof. rewrite evalcond_unfold. apply try_catch_returns. Qed.

(** A node whose [switch] throws evaluates to [false]. *)
Lemma evalcond_caught (formula : ProhibitedNoteFormulaValue) (e : error) :
  evalcond_switch utilityService blurhashModule FILE_TYPE_BROWSERSAFE
    (evalcond utilityService blurhashModule FILE_TYPE_BROWSERSAFE
       subject user roles)
    subject user roles formula = Throw e ->
  evalcond utilityService blurhashModule FILE_TYPE_BROWSERSAFE
    subject user roles formula = Return false.
Proof. intros H. rewrite evalcond_unfold, H. reflexivity. Qed.

Lemma evalcond_not (formula : ProhibitedNoteFormulaValue) (b : bool) :
  evalcond utilityService blurhashModule FILE_TYPE_BROWSERSAFE
    subject user roles formula = Return b ->
  evalcond utilityService blurhashModule FILE_TYPE_BROWSERSAFE
    subject user roles (Not formula) = Return (negb b).
Proof.
  intros H. rewrite evalcond_unfold. cbn [evalcond_switch]. rewrite H.
  reflexivity.
Qed.

(** [and] is the conjunction and [or] the disjunction of the children's
    verdicts: no child can abort the traversal. *)
Lemma evalcond_and (values : list ProhibitedNoteFormulaValue) :
  evalcond utilityService blurhashModule FILE_TYPE_BROWSERSAFE
    subject user roles (And values)
  = Return
      (forallb
         (fun v =>
            verdict
              (evalcond utilityService blurhashModule FILE_TYPE_BROWSERSAFE
                 subject user roles v))
         values).
Proof.
  rewrite evalcond_unfold. cbn [evalcond_switch].
  induction values as [| v values IH]; [reflexivity |].
  cbn [JsArray.every forallb].
  destruct (evalcond_returns v) as [[|] ->]; cbn [bind verdict andb].
  - exact IH.
  - reflexivity.
Qed.

Lemma evalcond_or (values : list ProhibitedNoteFormulaValue) :
  evalcond utilityService blurhashModule FILE_TYPE_BROWSERSAFE
    subject user roles (Or values)
  = Return
      (existsb
         (fun v =>
            verdict
              (evalcond utilityService blurhashModule FILE_TYPE_BROWSERSAFE
                 subject user roles v))
         values).
Proof.
  rewrite evalcond_unfold. cbn [evalcond_switch].
  induction values as [| v values IH]; [reflexivity |].
  cbn [JsArray.some existsb].
  destruct (evalcond_returns v) as [[|] ->]; cbn [bind verdict orb].
  - reflexivity.
  - exact IH.
Qed.

(** C1 (as amended): the failure boundary is the [try]/[catch] of
    [evalcond] itself, which every recursive call goes through.  A node
    whose [switch] throws therefore evaluates to [false] on its own, and
    the enclosing nodes combine that [false] as usual: [not(f)] returns
    [true] and [or([f, true])] returns [true]. *)
Theorem failure_caught_at_each_node
    (formula : ProhibitedNoteFormulaValue) (e : error) :
  evalcond_switch utilityService blurhashModule FILE_TYPE_BROWSERSAFE
    (evalcond utilityService blurhashModule FILE_TYPE_BROWSERSAFE
       subject user roles)
    subject user roles formula = Throw e ->
  evalcond utilityService blurhashModule FILE_TYPE_BROWSERSAFE
    subject user roles formula = Return false
  /\ evalcond utilityService blurhashModule FILE_TYPE_BROWSERSAFE
       subject user roles (Not formula) = Return true
  /\ evalcond utilityService blurhashModule FILE_TYPE_BROWSERSAFE
       subject user roles (Or [formula; FTrue]) = Return true.
Proof.
  intros H. pose proof (evalcond_caught formula e H) as Hf.
  split; [exact Hf | split].
  - exact (evalcond_not formula false Hf).
  - rewrite evalcond_unfold. cbn [evalcond_switch JsArray.some].
    rewrite Hf. reflexivity.
Qed.

(** C2: negation law.  For every formula [f], [evaluate(not(f))] is the
    boolean negation of [evaluate(f)]; [f] may be a formula whose
    [switch] throws, since [evaluate(f)] is a boolean all the same. *)
Theorem negation_law (formula : ProhibitedNoteFormulaValue) :
  exists b,
    evalcond utilityService blurhashModule FILE_TYPE_BROWSERSAFE
      subject user roles formula = Return b
    /\ evalcond utilityService blurhashModule FILE_TYPE_BROWSERSAFE
         subject user roles (Not formula) = Return (negb b).
Proof.
  destruct (evalcond_returns formula) as [b Hb].
  exists b. split; [exact Hb | exact (evalcond_not formula b Hb)].
Qed.

(** C4 (as amended): when the subject's file list is absent ([null]),
    [hasFileSizeLessThan(threshold)] returns [true]; when the subject
    has no files (list absent or empty),
    [hasFileSizeMoreThanOrEq(threshold)] returns [false]. *)
Theorem absent_files_defaults (threshold : Z) :
  files subject = None \/ files subject = Some [] ->
  (files subject = None ->
   evalcond utilityService blurhashModule FILE_TYPE_BROWSERSAFE
     subject user roles (HasFileSizeLessThan threshold) = Return true)
  /\ evalcond utilityService blurhashModule FILE_TYPE_BROWSERSAFE
       subject user roles (HasFileSizeMoreThanOrEq threshold) = Return false.
Proof.
  intros H. split.
  - intros Hnone. cbn. rewrite Hnone. reflexivity.
  - cbn. destruct H as [H | H]; rewrite H; reflexivity.
Qed.

(** C5: empty-list identity laws.  [and([])] evaluates to [true] and
    [or([])] evaluates to [false]. *)
Theorem empty_list_identities :
  evalcond utilityService blurhashModule FILE_TYPE_BROWSERSAFE
    subject user roles (And []) = Return true
  /\ evalcond utilityService blurhashModule FILE_TYPE_BROWSERSAFE
       subject user roles (Or []) = Return false.
Proof. split; reflexivity. Qed.

(** C6: forward compatibility.  A node whose kind is none of the
    recognized kinds evaluates to [false], and its [switch] returns
    that [false] without throwing. *)
Theorem unrecognized_kind_false (formula : ProhibitedNoteFormulaValue) :
  recognized formula = false ->
  evalcond_switch utilityService blurhashModule FILE_TYPE_BROWSERSAFE
    (evalcond utilityService blurhashModule FILE_TYPE_BROWSERSAFE
       subject user roles)
    subject user roles formula = Return false
  /\ evalcond utilityService blurhashModule FILE_TYPE_BROWSERSAFE
       subject user roles formula = Return false.
Proof.
  intros H. destruct formula; try discriminate H; split; reflexivity.
Qed.

(** C9: the [true] default of [hasFileSizeLessThan] is taken only for an
    absent file list.  On a present, empty list the predicate returns
    [false]. *)
Theorem empty_file_list_not_default (threshold : Z) :
  files subject = Some [] ->
  evalcond utilityService blurhashModule FILE_TYPE_BROWSERSAFE
    subject user roles (HasFileSizeLessThan threshold) = Return false.
Proof. intros H. cbn. rewrite H. reflexivity. Qed.

(** C10: [nameIsDefault] treats an empty display name as unset.  It
    returns [true] whatever the handle is. *)
Theorem nameIsDefault_empty_name :
  MiUser.name user = Some "" ->
  evalcond utilityService blurhashModule FILE_TYPE_BROWSERSAFE
    subject user roles NameIsDefault = Return true.
Proof. intros H. cbn. rewrite H. reflexivity. Qed.
End EvaluatorFacts.

(** ** The blurhash comparison *)

Section DistanceFacts.
Variable k : list Z.

Lemma skipn_nth_error (n : nat) (x : Z) :
  nth_error k n = Some x -> skipn n k = x :: skipn (S n) k.
Proof.
  revert n. induction k as [| y k' IH]; intros [| n] H; try discriminate.
  - injection H as ->. reflexivity.
  - cbn in H. apply IH in H. exact H.
Qed.

Lemma reduce_from_distance (d : list Z) :
  forall (n : nat) (v : Z),
    (n + List.length d <= List.length k)%nat ->
    JsArray.reduce_from
      (fun v j n => JsNumber.add v (JsNumber.abs_sub j (nth_error k n)))
      n d (Some v)
    = Some (v + summed_abs_difference d (skipn n k)).
Proof.
  induction d as [| j d' IH]; intros n v Hlen; cbn [JsArray.reduce_from].
  - destruct (skipn n k); cbn; f_equal; lia.
  - cbn [List.length] in Hlen.
    destruct (nth_error k n) as [kn |] eqn:Hn.
    + rewrite (skipn_nth_error n kn Hn).
      cbn [summed_abs_difference JsNumber.add JsNumber.abs_sub]. rewrite IH by lia. f_equal. ring.
    + apply nth_error_None in Hn. lia.
Qed.

(** On grids of matching size the code computes the summed absolute
    difference. *)
Lemma blurhash_distance_sum (d : list Z) :
  (List.length d <= List.length k)%nat ->
  blurhash_distance k d = Some (summed_abs_difference d k).
Proof.
  intros H. unfold blurhash_distance, JsArray.reduce, JsNumber.of_Z.
  rewrite reduce_from_distance by lia. reflexivity.
Qed.
End DistanceFacts.

Section BlurhashFacts.
Variable utilityService : UtilityService.
Variable blurhashModule : Blurhash.
Variable FILE_TYPE_BROWSERSAFE : list string.
Variable user : MiUser.t.
Variable roles : list MiRole.t.

Lemma likely_contributes (k : list Z) (diff : Z) (f : MiDriveFile.t)
    (b : string) :
  MiDriveFile.blurhash f = Some b ->
  likely blurhashModule k diff b
  = Return (file_contributes blurhashModule k diff f).
Proof.
  intros H. unfold likely, file_contributes. rewrite H.
  destruct (decode blurhashModule b 5 5); reflexivity.
Qed.

Lemma some_likely (k : list Z) (diff : Z) (fs : list MiDriveFile.t) :
  JsArray.some (likely blurhashModule k diff)
    (map (fun f => match MiDriveFile.blurhash f with
                   | Some b => b
                   | None => ""
                   end)
       (filter (fun f => match MiDriveFile.blurhash f with
                         | Some _ => true
                         | None => false
                         end) fs))
  = Return (existsb (file_contributes blurhashModule k diff) fs).
Proof.
  induction fs as [| f fs IH]; [reflexivity |].
  cbn [filter existsb].
  destruct (MiDriveFile.blurhash f) as [b |] eqn:Hb.
  - cbn [map JsArray.some]. rewrite Hb.
    rewrite (likely_contributes k diff f b Hb). cbn [bind].
    destruct (file_contributes blurhashModule k diff f);
      [reflexivity | exact IH].
  - replace (file_contributes blurhashModule k diff f) with false
      by (unfold file_contributes; rewrite Hb; reflexivity).
    exact IH.
Qed.

(** The verdict of the [hasLikelyBlurhash] case in closed form. *)
Lemma evalcond_hasLikelyBlurhash (subject : InspectionSubject)
    (hash : string) (diff : Z) :
  evalcond utilityService blurhashModule FILE_TYPE_BROWSERSAFE
    subject user roles (HasLikelyBlurhash hash diff)
  = Return
      match decode blurhashModule hash 5 5 with
      | Return k =>
          existsb (file_contributes blurhashModule k diff)
            (files_or_empty subject)
      | Throw _ => false
      end.
Proof.
  cbn [evalcond evalcond_switch].
  destruct (decode blurhashModule hash 5 5) as [k | e]; [| reflexivity].
  cbn [bind]. fold (files_or_empty subject). rewrite some_likely. reflexivity.
Qed.

Lemma file_contributes_iff (k : list Z) (diff : Z) (f : MiDriveFile.t) :
  fixed_grid blurhashModule ->
  (exists hash, decode blurhashModule hash 5 5 = Return k) ->
  file_contributes blurhashModule k diff f = true <->
  exists b d,
    MiDriveFile.blurhash f = Some b
    /\ decode blurhashModule b 5 5 = Return d
    /\ summed_abs_difference d k <= diff.
Proof.
  intros Hgrid [hash Hk]. unfold file_contributes. split.
  - destruct (MiDriveFile.blurhash f) as [b |]; [| discriminate].
    destruct (decode blurhashModule b 5 5) as [d | e] eqn:Hd;
      [| discriminate].
    rewrite blurhash_distance_sum by (rewrite (Hgrid _ _ _ _ Hd Hk); lia).
    unfold JsNumber.leb. rewrite Z.leb_le. intros H.
    exists b, d. auto.
  - intros (b & d & -> & Hd & Hle). rewrite Hd.
    rewrite blurhash_distance_sum by (rewrite (Hgrid _ _ _ _ Hd Hk); lia).
    unfold JsNumber.leb. rewrite Z.leb_le. exact Hle.
Qed.

(** C7: failure handling of [hasLikelyBlurhash], for a decoder whose
    grids have one size.  The leaf returns [true] iff the target hash
    decodes and some attached file has a hash that decodes to a grid
    whose summed absolute per-component difference from the target grid
    is at most the threshold; if the target hash does not decode the
    leaf returns [false]; a file whose hash does not decode contributes
    [false] and the other files are still examined, so that dropping
    it from the list leaves the verdict unchanged. *)
Theorem hasLikelyBlurhash_failures (subject : InspectionSubject)
    (hash : string) (diff : Z) :
  fixed_grid blurhashModule ->
  (evalcond utilityService blurhashModule FILE_TYPE_BROWSERSAFE
     subject user roles (HasLikelyBlurhash hash diff) = Return true
   <->
   exists k f b d,
     decode blurhashModule hash 5 5 = Return k
     /\ In f (files_or_empty subject)
     /\ MiDriveFile.blurhash f = Some b
     /\ decode blurhashModule b 5 5 = Return d
     /\ summed_abs_difference d k <= diff)
  /\ (forall e,
        decode blurhashModule hash 5 5 = Throw e ->
        evalcond utilityService blurhashModule FILE_TYPE_BROWSERSAFE
          subject user roles (HasLikelyBlurhash hash diff) = Return false)
  /\ (forall fs1 f fs2 b e,
        MiDriveFile.blurhash f = Some b ->
        decode blurhashModule b 5 5 = Throw e ->
        evalcond utilityService blurhashModule FILE_TYPE_BROWSERSAFE
          (with_files subject (Some (fs1 ++ f :: fs2))) user roles
          (HasLikelyBlurhash hash diff)
        = evalcond utilityService blurhashModule FILE_TYPE_BROWSERSAFE
            (with_files subject (Some (fs1 ++ fs2))) user roles
            (HasLikelyBlurhash hash diff)).
Proof.
  intros Hgrid. split; [| split].
  - rewrite evalcond_hasLikelyBlurhash.
    destruct (decode blurhashModule hash 5 5) as [k | e] eqn:Hk.
    + split.
      * intros H. injection H as H. apply existsb_exists in H.
        destruct H as (f & Hin & Hf).
        apply file_contributes_iff in Hf;
          [| exact Hgrid | exists hash; exact Hk].
        destruct Hf as (b & d & Hb & Hd & Hle).
        exists k, f, b, d. auto.
      * intros (k' & f & b & d & Hk' & Hin & Hb & Hd & Hle).
        injection Hk' as <-. f_equal. apply existsb_exists. exists f.
        split; [exact Hin |].
        apply file_contributes_iff; [exact Hgrid | exists hash; exact Hk |].
        exists b, d. auto.
    + split; [discriminate |].
      intros (k' & f & b & d & Hk' & _). discriminate Hk'.
  - intros e He. rewrite evalcond_hasLikelyBlurhash, He. reflexivity.
  - intros fs1 f fs2 b e Hb He. rewrite !evalcond_hasLikelyBlurhash.
    destruct (decode blurhashModule hash 5 5) as [k | e']; [| reflexivity].
    unfold files_or_empty, with_files. cbn [files].
    rewrite !existsb_app. cbn [existsb].
    replace (file_contributes blurhashModule k diff f) with false
      by (unfold file_contributes; rewrite Hb, He; reflexivity).
    reflexivity.
Qed.
End BlurhashFacts.

(** ** The gate *)

Section GateFacts.
Variable metaService : MetaService.
Variable cacheService : CacheService.
Variable roleService : RoleService.
Variable utilityService : UtilityService.
Variable blurhashModule : Blurhash.
Variable FILE_TYPE_BROWSERSAFE : list string.
Variable subject : InspectionSubject.

(** C3: gate fast path.  When the fetched configuration carries no
    formula (its [type] is falsy), [isProhibitedNote] returns [false]
    and the only service call of the run is the configuration fetch:
    neither the user lookup nor the role lookup is invoked. *)
Theorem gate_fast_path (log : list Call) (meta : MiMeta) :
  fetch metaService = Return meta ->
  truthy (formula_type (prohibitedNotePattern meta)) = false ->
  isProhibitedNote metaService cacheService roleService utilityService
    blurhashModule FILE_TYPE_BROWSERSAFE subject log
  = (Return false, log ++ [MetaService_fetch])
  /\ filter is_lookup
       (snd (isProhibitedNote metaService cacheService roleService
               utilityService blurhashModule FILE_TYPE_BROWSERSAFE
               subject log))
     = filter is_lookup log.
Proof.
  intros Hmeta Hunset.
  assert (Hrun :
    isProhibitedNote metaService cacheService roleService utilityService
      blurhashModule FILE_TYPE_BROWSERSAFE subject log
    = (Return false, log ++ [MetaService_fetch])).
  { unfold isProhibitedNote, then_, await. rewrite Hmeta. cbn zeta.
    rewrite Hunset. reflexivity. }
  split; [exact Hrun |].
  rewrite Hrun. cbn [snd]. rewrite filter_app. cbn. apply app_nil_r.
Qed.

(** C8: totality of the evaluator.  [evalcond] is a structural
    recursion, so it terminates; on every subject, user record, role
    set and formula it returns a boolean and never throws, whatever the
    keyword matcher and the decoder do.  Hence an exception observed by
    a caller of [isProhibitedNote] is one thrown by the configuration
    fetch, the user lookup or the role lookup, and when these three
    return the gate returns a boolean. *)
Theorem evaluator_total :
  (forall user roles formula,
      exists b,
        evalcond utilityService blurhashModule FILE_TYPE_BROWSERSAFE
          subject user roles formula = Return b)
  /\ (forall log e,
        fst (isProhibitedNote metaService cacheService roleService
               utilityService blurhashModule FILE_TYPE_BROWSERSAFE
               subject log) = Throw e ->
        fetch metaService = Throw e
        \/ findUserById cacheService (userId subject) = Throw e
        \/ getUserRoles roleService (userId subject) = Throw e)
  /\ (forall log meta user roles,
        fetch metaService = Return meta ->
        findUserById cacheService (userId subject) = Return user ->
        getUserRoles roleService (userId subject) = Return roles ->
        exists b,
          fst (isProhibitedNote metaService cacheService roleService
                 utilityService blurhashModule FILE_TYPE_BROWSERSAFE
                 subject log) = Return b).
Proof.
  split; [| split].
  - intros user roles formula. apply evalcond_returns.
  - intros log e. unfold isProhibitedNote, then_, await, resolve.
    destruct (fetch metaService) as [meta | e0]; cbn zeta.
    + destruct (truthy (formula_type (prohibitedNotePattern meta)));
        [| discriminate].
      destruct (findUserById cacheService (userId subject)) as [user | e1].
      * destruct (getUserRoles roleService (userId subject)) as [roles | e2].
        -- cbn [fst].
           destruct (evalcond_returns utilityService blurhashModule
                       FILE_TYPE_BROWSERSAFE subject user roles
                       (prohibitedNotePattern meta)) as [b ->].
           discriminate.
        -- cbn [fst]. intros H. injection H as ->. right. right. reflexivity.
      * cbn [fst]. intros H. injection H as ->. right. left. reflexivity.
    + cbn [fst]. intros H. injection H as ->. left. reflexivity.
  - intros log meta user roles Hmeta Huser Hroles.
    unfold isProhibitedNote, then_, await, resolve.
    rewrite Hmeta. cbn zeta.
    destruct (truthy (formula_type (prohibitedNotePattern meta)));
      [| exists false; reflexivity].
    rewrite Huser, Hroles. cbn [fst]. apply evalcond_returns.
Qed.
End GateFacts.

(** ** Concrete runs *)

Module Runs.
Import Examples.

(** The scenarios of the design document. *)
Example files_and_total_size :
  evalcond exactMatcher tableDecoder safeTypes
    (note (Some [file 600 None; file 500 None])) alice []
    (And [HasFiles; FileTotalSizeMoreThanOrEq 1000]) = Return true.
Proof. reflexivity. Qed.

Example role_not_assigned :
  evalcond exactMatcher tableDecoder safeTypes
    (note None) alice [{| MiRole.id := "user" |}]
    (RoleAssignedOf "admin") = Return false.
Proof. reflexivity. Qed.

Example no_reply_two_hashtags :
  evalcond exactMatcher tableDecoder safeTypes (note None) alice []
    (Or [IsReply; HashtagCountMoreThanOrEq 3]) = Return false.
Proof. reflexivity. Qed.

(** [and] stops at the first [false]: the failing leaf is not reached. *)
Example and_short_circuit :
  JsArray.every (fun v : bool => if v then Throw (Error "reached") else Return v)
    [false; true] = Return false
  /\ evalcond failingMatcher tableDecoder safeTypes (note None) alice []
       (And [FFalse; spamLeaf]) = Return false.
Proof. split; reflexivity. Qed.

(** A grid longer than the target grid gives NaN, which is not [<=]
    any threshold. *)
Example distance_past_the_end :
  blurhash_distance [1; 2] [1; 2; 3] = JsNumber.NaN
  /\ JsNumber.leb (blurhash_distance [1; 2] [1; 2; 3]) 1000 = false.
Proof. split; reflexivity. Qed.

(** With the lookups failing, a configured formula makes the gate throw
    the user lookup's error after two service calls. *)
Example gate_lookup_failure :
  isProhibitedNote {| fetch := Return {| prohibitedNotePattern := FTrue |} |}
    noUsers noRoles exactMatcher tableDecoder safeTypes (note None) []
  = (Throw (Error "no such user"),
     [MetaService_fetch; CacheService_findUserById "u1"]).
Proof. reflexivity. Qed.
End Runs.

(** ** Instances of the theorems, and inputs on which the code departs
    from the design document *)

Section Instances.
Import Examples.

(** With a matcher that throws, the leaf's [switch] throws; the leaf is
    [false], its negation [true] and the disjunction with [true] is
    [true]. *)
Lemma failure_caught_at_each_node_witness :
  evalcond failingMatcher tableDecoder safeTypes (note None) alice []
    spamLeaf = Return false
  /\ evalcond failingMatcher tableDecoder safeTypes (note None) alice []
       (Not spamLeaf) = Return true
  /\ evalcond failingMatcher tableDecoder safeTypes (note None) alice []
       (Or [spamLeaf; FTrue]) = Return true.
Proof.
  apply (failure_caught_at_each_node failingMatcher tableDecoder safeTypes
           (note None) alice [] spamLeaf (Error "matcher failed")).
  reflexivity.
Defined.

(** C1 fails on the code: evaluating [spamLeaf] raises (the matcher
    throws inside its [switch]), yet [not(spamLeaf)] and
    [or([spamLeaf, true])] both evaluate to [true], not to [false]. *)
Lemma failure_boundary_not_coarse :
  evalcond_switch failingMatcher tableDecoder safeTypes
    (evalcond failingMatcher tableDecoder safeTypes (note None) alice [])
    (note None) alice [] spamLeaf = Throw (Error "matcher failed")
  /\ evalcond failingMatcher tableDecoder safeTypes (note None) alice []
       (Not spamLeaf) = Return true
  /\ evalcond failingMatcher tableDecoder safeTypes (note None) alice []
       (Or [spamLeaf; FTrue]) = Return true
  /\ evalcond failingMatcher tableDecoder safeTypes (note None) alice []
       (Not spamLeaf) <> Return false
  /\ evalcond failingMatcher tableDecoder safeTypes (note None) alice []
       (Or [spamLeaf; FTrue]) <> Return false.
Proof. repeat split; try reflexivity; discriminate. Qed.

Lemma gate_fast_path_witness :
  isProhibitedNote unsetMeta noUsers noRoles exactMatcher tableDecoder
    safeTypes (note None) []
  = (Return false, [MetaService_fetch])
  /\ filter is_lookup
       (snd (isProhibitedNote unsetMeta noUsers noRoles exactMatcher
               tableDecoder safeTypes (note None) []))
     = [].
Proof.
  apply (gate_fast_path unsetMeta noUsers noRoles exactMatcher tableDecoder
           safeTypes (note None) []
           {| prohibitedNotePattern := Other None |});
    reflexivity.
Defined.

Lemma absent_files_defaults_witness :
  (files (note None) = None ->
   evalcond exactMatcher tableDecoder safeTypes (note None) alice []
     (HasFileSizeLessThan 100) = Return true)
  /\ evalcond exactMatcher tableDecoder safeTypes (note None) alice []
       (HasFileSizeMoreThanOrEq 100) = Return false.
Proof.
  apply (absent_files_defaults exactMatcher tableDecoder safeTypes
           (note None) alice [] 100).
  left. reflexivity.
Defined.

(** C4 fails on the code for a subject whose file list is present and
    empty: such a subject has no files, yet
    [hasFileSizeLessThan(100)] returns [false]. *)
Lemma empty_files_size_less_than :
  files (note (Some [])) = Some []
  /\ evalcond exactMatcher tableDecoder safeTypes (note (Some [])) alice []
       (HasFileSizeLessThan 100) = Return false
  /\ evalcond exactMatcher tableDecoder safeTypes (note (Some [])) alice []
       (HasFileSizeLessThan 100) <> Return true.
Proof. repeat split; try reflexivity; discriminate. Qed.

Lemma unrecognized_kind_false_witness :
  evalcond_switch exactMatcher tableDecoder safeTypes
    (evalcond exactMatcher tableDecoder safeTypes (note None) alice [])
    (note None) alice [] (Other (Some "hasPoll")) = Return false
  /\ evalcond exactMatcher tableDecoder safeTypes (note None) alice []
       (Other (Some "hasPoll")) = Return false.
Proof.
  apply (unrecognized_kind_false exactMatcher tableDecoder safeTypes
           (note None) alice [] (Other (Some "hasPoll"))).
  reflexivity.
Defined.

(** The table decoder has grids of one size; with the target ["dark"]
    and threshold 6, a file whose hash does not decode is passed over
    and the next file, at distance 1 + 2 + 0 + 3 = 6, is found. *)
Lemma hasLikelyBlurhash_failures_witness :
  fixed_grid tableDecoder
  /\ evalcond exactMatcher tableDecoder safeTypes
       (note (Some [file 10 (Some "broken"); file 20 (Some "dim")])) alice []
       (HasLikelyBlurhash "dark" 6)
     = Return true.
Proof.
  assert (Hgrid : fixed_grid tableDecoder).
  { intros s1 s2 a1 a2. cbn.
    destruct (s1 =? "dark")%string, (s1 =? "dim")%string,
      (s2 =? "dark")%string, (s2 =? "dim")%string;
      intros H1 H2; try discriminate;
      injection H1 as <-; injection H2 as <-; reflexivity. }
  split; [exact Hgrid |].
  apply (hasLikelyBlurhash_failures exactMatcher tableDecoder safeTypes
           alice []
           (note (Some [file 10 (Some "broken"); file 20 (Some "dim")]))
           "dark" 6 Hgrid).
  exists [0; 0; 0; 10], (file 20 (Some "dim")), "dim", [1; 2; 0; 7].
  repeat split; try reflexivity.
  right. left. reflexivity.
Defined.

Lemma empty_file_list_not_default_witness :
  evalcond exactMatcher tableDecoder safeTypes (note (Some [])) alice []
    (HasFileSizeLessThan 100) = Return false.
Proof.
  apply (empty_file_list_not_default exactMatcher tableDecoder safeTypes
           (note (Some [])) alice [] 100).
  reflexivity.
Defined.

Lemma nameIsDefault_empty_name_witness :
  MiUser.username alice = "alice"
  /\ evalcond exactMatcher tableDecoder safeTypes (note None) alice []
       NameIsDefault = Return true.
Proof.
  split; [reflexivity |].
  apply (nameIsDefault_empty_name exactMatcher tableDecoder safeTypes
           (note None) alice []).
  reflexivity.
Defined.
End Instances.

(** * Further properties of the evaluator *)

(** ** Induction on formulas and evaluation in two contexts *)

Lemma formula_structural_ind (P : ProhibitedNoteFormulaValue -> Prop) :
  (forall values, Forall P values -> P (And values)) ->
  (forall values, Forall P values -> P (Or values)) ->
  (forall value, P value -> P (Not value)) ->
  (forall formula, structural formula = false -> P formula) ->
  forall formula, P formula.
Proof.
  intros HAnd HOr HNot Hleaf. fix IH 1. intros formula.
  destruct formula; try (apply Hleaf; reflexivity).
  - apply HAnd. induction values as [| v values IHvalues]; constructor.
    + apply IH.
    + exact IHvalues.
  - apply HOr. induction values as [| v values IHvalues]; constructor.
    + apply IH.
    + exact IHvalues.
  - apply HNot. apply IH.
Qed.

Lemma verdict_true (c : completion bool) :
  verdict c = true <-> c = Return true.
Proof.
  destruct c as [[|] | e]; cbn; split; intros H;
    try reflexivity; try discriminate H.
Qed.

Section TwoContexts.
Variable utilityService : UtilityService.
Variable blurhashModule : Blurhash.
Variable FILE_TYPE_BROWSERSAFE : list string.
Variables subject subject' : InspectionSubject.
Variables user user' : MiUser.t.
Variables roles roles' : list MiRole.t.
Variable ok : ProhibitedNoteFormulaValue -> bool.

(** Two contexts that agree on the leaves of a formula agree on it. *)
Lemma evalcond_congruence :
  (forall leaf,
      structural leaf = false -> ok leaf = true ->
      evalcond utilityService blurhashModule FILE_TYPE_BROWSERSAFE
        subject user roles leaf
      = evalcond utilityService blurhashModule FILE_TYPE_BROWSERSAFE
          subject' user' roles' leaf) ->
  forall formula,
    leaves_all ok formula = true ->
    evalcond utilityService blurhashModule FILE_TYPE_BROWSERSAFE
      subject user roles formula
    = evalcond utilityService blurhashModule FILE_TYPE_BROWSERSAFE
        subject' user' roles' formula.
Proof.
  intros Hleaf formula.
  induction formula as [values IH | values IH | value IH | leaf Hs]
    using formula_structural_ind; intros Hok.
  - rewrite !evalcond_and. f_equal. cbn [leaves_all] in Hok.
    induction IH as [| v values Hv _ IHvalues]; [reflexivity |].
    cbn [forallb] in Hok |- *. apply andb_true_iff in Hok as [Hv' Hvs].
    rewrite (Hv Hv'), (IHvalues Hvs). reflexivity.
  - rewrite !evalcond_or. f_equal. cbn [leaves_all] in Hok.
    induction IH as [| v values Hv _ IHvalues]; [reflexivity |].
    cbn [forallb] in Hok. cbn [existsb].
    apply andb_true_iff in Hok as [Hv' Hvs].
    rewrite (Hv Hv'), (IHvalues Hvs). reflexivity.
  - cbn [leaves_all] in Hok.
    destruct (evalcond_returns utilityService blurhashModule
                FILE_TYPE_BROWSERSAFE subject user roles value) as [b Hb].
    rewrite (evalcond_not _ _ _ _ _ _ _ _ Hb).
    rewrite (IH Hok) in Hb.
    rewrite (evalcond_not _ _ _ _ _ _ _ _ Hb). reflexivity.
  - apply Hleaf; [exact Hs |].
    destruct leaf; try discriminate Hs; exact Hok.
Qed.
End TwoContexts.

(** ** Laws of the structural nodes *)

Section Laws.
Variable utilityService : UtilityService.
Variable blurhashModule : Blurhash.
Variable FILE_TYPE_BROWSERSAFE : list string.
Variable subject : InspectionSubject.
Variable user : MiUser.t.
Variable roles : list MiRole.t.

Lemma verdict_false (formula : ProhibitedNoteFormulaValue) :
  verdict
    (evalcond utilityService blurhashModule FILE_TYPE_BROWSERSAFE
       subject user roles formula) = false
  <-> evalcond utilityService blurhashModule FILE_TYPE_BROWSERSAFE
        subject user roles formula = Return false.
Proof.
  destruct (evalcond_returns utilityService blurhashModule
              FILE_TYPE_BROWSERSAFE subject user roles formula) as [[|] ->];
    cbn; split; intros H; try reflexivity; discriminate H.
Qed.

Lemma verdict_not (formula : ProhibitedNoteFormulaValue) :
  verdict
    (evalcond utilityService blurhashModule FILE_TYPE_BROWSERSAFE
       subject user roles (Not formula))
  = negb
      (verdict
         (evalcond utilityService blurhashModule FILE_TYPE_BROWSERSAFE
            subject user roles formula)).
Proof.
  destruct (evalcond_returns utilityService blurhashModule
              FILE_TYPE_BROWSERSAFE subject user roles formula) as [b Hb].
  rewrite (evalcond_not _ _ _ _ _ _ _ _ Hb), Hb. reflexivity.
Qed.

(** X1: [and(values)] returns [true] exactly when every child evaluates
    to [true], and [false] exactly when some child evaluates to [false];
    a child whose evaluation raised counts as [false] and does not abort
    the conjunction. *)
Theorem and_every_child (values : list ProhibitedNoteFormulaValue) :
  (evalcond utilityService blurhashModule FILE_TYPE_BROWSERSAFE
     subject user roles (And values) = Return true
   <->
   Forall
     (fun v =>
        evalcond utilityService blurhashModule FILE_TYPE_BROWSERSAFE
          subject user roles v = Return true)
     values)
  /\ (evalcond utilityService blurhashModule FILE_TYPE_BROWSERSAFE
        subject user roles (And values) = Return false
      <->
      Exists
        (fun v =>
           evalcond utilityService blurhashModule FILE_TYPE_BROWSERSAFE
             subject user roles v = Return false)
        values).
Proof.
  rewrite evalcond_and. split.
  - rewrite Forall_forall. split.
    + intros H v Hin. injection H as H. rewrite forallb_forall in H.
      apply verdict_true. apply H. exact Hin.
    + intros H. f_equal. apply forallb_forall. intros v Hin.
      apply verdict_true. apply H. exact Hin.
  - rewrite Exists_exists. split.
    + intros H. injection H as H.
      induction values as [| v values IH]; [discriminate H |].
      cbn [forallb] in H. apply andb_false_iff in H as [H | H].
      * exists v. split; [left; reflexivity | apply verdict_false; exact H].
      * destruct (IH H) as (w & Hin & Hw). exists w. split; [right |]; auto.
    + intros (v & Hin & Hv). f_equal.
      destruct (forallb _ values) eqn:Hall; [| reflexivity].
      rewrite forallb_forall in Hall. specialize (Hall v Hin).
      rewrite Hv in Hall. discriminate Hall.
Qed.

(** X2: [or(values)] returns [true] exactly when some child evaluates to
    [true], and [false] exactly when every child evaluates to [false]. *)
Theorem or_some_child (values : list ProhibitedNoteFormulaValue) :
  (evalcond utilityService blurhashModule FILE_TYPE_BROWSERSAFE
     subject user roles (Or values) = Return true
   <->
   Exists
     (fun v =>
        evalcond utilityService blurhashModule FILE_TYPE_BROWSERSAFE
          subject user roles v = Return true)
     values)
  /\ (evalcond utilityService blurhashModule FILE_TYPE_BROWSERSAFE
        subject user roles (Or values) = Return false
      <->
      Forall
        (fun v =>
           evalcond utilityService blurhashModule FILE_TYPE_BROWSERSAFE
             subject user roles v = Return false)
        values).
Proof.
  rewrite evalcond_or. split.
  - rewrite Exists_exists. split.
    + intros H. injection H as H. apply existsb_exists in H.
      destruct H as (v & Hin & Hv). exists v. split; [exact Hin |].
      apply verdict_true. exact Hv.
    + intros (v & Hin & Hv). f_equal. apply existsb_exists.
      exists v. split; [exact Hin | apply verdict_true; exact Hv].
  - rewrite Forall_forall. split.
    + intros H v Hin. injection H as H. apply verdict_false.
      destruct (verdict _) eqn:Hv; [| reflexivity].
      assert (Hex : existsb
                      (fun v =>
                         verdict
                           (evalcond utilityService blurhashModule
                              FILE_TYPE_BROWSERSAFE subject user roles v))
                      values = true)
        by (apply existsb_exists; exists v; auto).
      rewrite H in Hex. discriminate Hex.
    + intros H. f_equal.
      destruct (existsb _ values) eqn:Hex; [| reflexivity].
      apply existsb_exists in Hex. destruct Hex as (v & Hin & Hv).
      apply verdict_true in Hv. rewrite (H v Hin) in Hv. discriminate Hv.
Qed.

(** X3: De Morgan's laws hold for all children, raising or not:
    [not(and(values))] evaluates as [or] of the negated children, and
    [not(or(values))] as [and] of the negated children. *)
Theorem de_morgan (values : list ProhibitedNoteFormulaValue) :
  evalcond utilityService blurhashModule FILE_TYPE_BROWSERSAFE
    subject user roles (Not (And values))
  = evalcond utilityService blurhashModule FILE_TYPE_BROWSERSAFE
      subject user roles (Or (map Not values))
  /\ evalcond utilityService blurhashModule FILE_TYPE_BROWSERSAFE
       subject user roles (Not (Or values))
     = evalcond utilityService blurhashModule FILE_TYPE_BROWSERSAFE
         subject user roles (And (map Not values)).
Proof.
  split.
  - rewrite (evalcond_not _ _ _ _ _ _ _ _ (evalcond_and _ _ _ _ _ _ values)).
    rewrite evalcond_or. f_equal.
    induction values as [| v values IH]; [reflexivity |].
    cbn [map forallb existsb]. rewrite negb_andb, verdict_not, IH.
    reflexivity.
  - rewrite (evalcond_not _ _ _ _ _ _ _ _ (evalcond_or _ _ _ _ _ _ values)).
    rewrite evalcond_and. f_equal.
    induction values as [| v values IH]; [reflexivity |].
    cbn [map forallb existsb]. rewrite negb_orb, verdict_not, IH.
    reflexivity.
Qed.

(** X4: a double negation evaluates as the formula itself. *)
Theorem double_negation (formula : ProhibitedNoteFormulaValue) :
  evalcond utilityService blurhashModule FILE_TYPE_BROWSERSAFE
    subject user roles (Not (Not formula))
  = evalcond utilityService blurhashModule FILE_TYPE_BROWSERSAFE
      subject user roles formula.
Proof.
  destruct (evalcond_returns utilityService blurhashModule
              FILE_TYPE_BROWSERSAFE subject user roles formula) as [b Hb].
  rewrite (evalcond_not _ _ _ _ _ _ _ _
             (evalcond_not _ _ _ _ _ _ _ _ Hb)).
  rewrite Hb, negb_involutive. reflexivity.
Qed.

(** X5: a nested [and] can be spliced into its parent [and], and a
    nested [or] into its parent [or], without changing the verdict. *)
Theorem nested_flatten (before inner after : list ProhibitedNoteFormulaValue) :
  evalcond utilityService blurhashModule FILE_TYPE_BROWSERSAFE
    subject user roles (And (before ++ And inner :: after))
  = evalcond utilityService blurhashModule FILE_TYPE_BROWSERSAFE
      subject user roles (And (before ++ inner ++ after))
  /\ evalcond utilityService blurhashModule FILE_TYPE_BROWSERSAFE
       subject user roles (Or (before ++ Or inner :: after))
     = evalcond utilityService blurhashModule FILE_TYPE_BROWSERSAFE
         subject user roles (Or (before ++ inner ++ after)).
Proof.
  split.
  - rewrite !evalcond_and. f_equal.
    rewrite !forallb_app. cbn [forallb]. rewrite evalcond_and. reflexivity.
  - rewrite !evalcond_or. f_equal.
    rewrite !existsb_app. cbn [existsb]. rewrite evalcond_or. reflexivity.
Qed.
End Laws.

(** ** Relations between the leaves *)

Section Distances.
Variable k : list Z.

Lemma reduce_from_lower_bound (d : list Z) :
  forall (n : nat) (v r : Z),
    JsArray.reduce_from
      (fun v j n => JsNumber.add v (JsNumber.abs_sub j (nth_error k n)))
      n d (Some v) = Some r ->
    v <= r.
Proof.
  induction d as [| j d' IH]; intros n v r; cbn [JsArray.reduce_from].
  - intros H. injection H as <-. lia.
  - destruct (nth_error k n) as [kn |]; cbn [JsNumber.abs_sub JsNumber.add].
    + intros H. apply IH in H. pose proof (Z.abs_nonneg (j - kn)). lia.
    + clear IH. generalize (S n). induction d' as [| j' d'' IH'];
        intros m; cbn; [discriminate | apply IH'].
Qed.

Lemma summed_abs_difference_diag : summed_abs_difference k k = 0.
Proof.
  induction k as [| x k' IH]; [reflexivity |].
  cbn [summed_abs_difference]. rewrite IH, Z.sub_diag. reflexivity.
Qed.
End Distances.

Lemma total_size_lower_bound (fs : list MiDriveFile.t) :
  Forall (fun f => 0 <= MiDriveFile.size f) fs ->
  forall (f : MiDriveFile.t) (p : Z),
    In f fs ->
    p + MiDriveFile.size f
    <= fold_left (fun p f => p + MiDriveFile.size f) fs p.
Proof.
  assert (Hmono :
    forall gs, Forall (fun f => 0 <= MiDriveFile.size f) gs ->
    forall p, p <= fold_left (fun p f => p + MiDriveFile.size f) gs p).
  { intros gs Hgs. induction Hgs as [| g gs Hg _ IH]; intros p; cbn.
    - lia.
    - specialize (IH (p + MiDriveFile.size g)). lia. }
  intros Hfs. induction Hfs as [| g gs Hg Hgs IH]; intros f p Hin.
  - destruct Hin.
  - cbn [fold_left]. destruct Hin as [<- | Hin].
    + apply Hmono. exact Hgs.
    + specialize (IH f (p + MiDriveFile.size g) Hin). lia.
Qed.

Section LeafLaws.
Variable utilityService : UtilityService.
Variable blurhashModule : Blurhash.
Variable FILE_TYPE_BROWSERSAFE : list string.
Variable subject : InspectionSubject.
Variable user : MiUser.t.
Variable roles : list MiRole.t.

(** X6: for the four counted quantities (mentions, files, total file
    size, hashtags) the [LessThan] leaf is the negation of the
    [MoreThanOrEq] leaf with the same threshold. *)
Theorem less_than_complements (threshold : Z) :
  evalcond utilityService blurhashModule FILE_TYPE_BROWSERSAFE
    subject user roles (MentionCountLessThan threshold)
  = evalcond utilityService blurhashModule FILE_TYPE_BROWSERSAFE
      subject user roles (Not (MentionCountMoreThanOrEq threshold))
  /\ evalcond utilityService blurhashModule FILE_TYPE_BROWSERSAFE
       subject user roles (FileCountLessThan threshold)
     = evalcond utilityService blurhashModule FILE_TYPE_BROWSERSAFE
         subject user roles (Not (FileCountMoreThanOrEq threshold))
  /\ evalcond utilityService blurhashModule FILE_TYPE_BROWSERSAFE
       subject user roles (FileTotalSizeLessThan threshold)
     = evalcond utilityService blurhashModule FILE_TYPE_BROWSERSAFE
         subject user roles (Not (FileTotalSizeMoreThanOrEq threshold))
  /\ evalcond utilityService blurhashModule FILE_TYPE_BROWSERSAFE
       subject user roles (HashtagCountLessThan threshold)
     = evalcond utilityService blurhashModule FILE_TYPE_BROWSERSAFE
         subject user roles (Not (HashtagCountMoreThanOrEq threshold)).
Proof.
  repeat split; cbn; f_equal; rewrite Z.geb_leb; apply Z.ltb_antisym.
Qed.

(** X7: the presence leaves agree with the count leaves: [hasFiles] is
    [fileCountMoreThanOrEq(1)], [hasHashtags] is
    [hashtagCountMoreThanOrEq(1)], and [hasMentions] is
    [or([isReply, mentionCountMoreThanOrEq(1)])], so that a reply counts
    as having mentions even when its mention list is empty. *)
Theorem presence_is_count_at_least_one :
  evalcond utilityService blurhashModule FILE_TYPE_BROWSERSAFE
    subject user roles HasFiles
  = evalcond utilityService blurhashModule FILE_TYPE_BROWSERSAFE
      subject user roles (FileCountMoreThanOrEq 1)
  /\ evalcond utilityService blurhashModule FILE_TYPE_BROWSERSAFE
       subject user roles HasHashtags
     = evalcond utilityService blurhashModule FILE_TYPE_BROWSERSAFE
         subject user roles (HashtagCountMoreThanOrEq 1)
  /\ evalcond utilityService blurhashModule FILE_TYPE_BROWSERSAFE
       subject user roles HasMentions
     = evalcond utilityService blurhashModule FILE_TYPE_BROWSERSAFE
         subject user roles (Or [IsReply; MentionCountMoreThanOrEq 1]).
Proof.
  assert (H : forall x, (x >? 0) = (x >=? 1)).
  { intros x. rewrite Z.gtb_ltb, Z.geb_leb.
    destruct (Z.ltb_spec 0 x), (Z.leb_spec 1 x); reflexivity || lia. }
  repeat split; cbn.
  - destruct (files subject); [rewrite H |]; reflexivity.
  - rewrite H. reflexivity.
  - destruct (reply subject); [reflexivity |]. rewrite H.
    destruct (length (mentions subject) >=? 1); reflexivity.
Qed.

(** X8: the two per-file size leaves are both [false] at one threshold
    only on a present, empty file list: on an absent list
    [hasFileSizeLessThan] is [true], and on a list with a file that
    file is either below the threshold or not. *)
Theorem size_leaves_both_false_iff_empty (threshold : Z) :
  evalcond utilityService blurhashModule FILE_TYPE_BROWSERSAFE
    subject user roles
    (Or [HasFileSizeLessThan threshold; HasFileSizeMoreThanOrEq threshold])
  = Return false
  <-> files subject = Some [].
Proof.
  cbn. destruct (files subject) as [[| f fs] |]; cbn.
  - split; reflexivity.
  - rewrite Z.geb_leb.
    destruct (Z.ltb_spec (MiDriveFile.size f) threshold) as [Hlt | Hge]; cbn.
    + split; discriminate.
    + destruct (existsb _ fs); cbn; [split; discriminate |].
      destruct (Z.leb_spec threshold (MiDriveFile.size f)); [| lia].
      cbn. split; discriminate.
  - split; discriminate.
Qed.

(** X9: when [hasFiles] is [false], the leaves that look for a file with
    some property ([hasFileSizeMoreThanOrEq], [hasFileMD5Is],
    [hasBrowserInsafe], [hasPictures], [hasLikelyBlurhash]) are all
    [false]. *)
Theorem without_files_no_file_leaf (size diff : Z) (md5 hash : string) :
  evalcond utilityService blurhashModule FILE_TYPE_BROWSERSAFE
    subject user roles HasFiles = Return false ->
  Forall
    (fun leaf =>
       evalcond utilityService blurhashModule FILE_TYPE_BROWSERSAFE
         subject user roles leaf = Return false)
    [ HasFileSizeMoreThanOrEq size; HasFileMD5Is md5; HasBrowserInsafe;
      HasPictures; HasLikelyBlurhash hash diff ].
Proof.
  intros H.
  assert (Hfiles : files subject = None \/ files subject = Some []).
  { cbn in H. destruct (files subject) as [[| f fs] |]; auto.
    exfalso. injection H as H. unfold length in H. cbn [List.length] in H.
    rewrite Z.gtb_ltb in H. apply Z.ltb_ge in H. lia. }
  repeat constructor;
    try (cbn; destruct Hfiles as [-> | ->]; reflexivity).
  rewrite evalcond_hasLikelyBlurhash. unfold files_or_empty.
  destruct Hfiles as [-> | ->];
    destruct (decode blurhashModule hash 5 5); reflexivity.
Qed.

(** X10: with file sizes that are not negative, a subject that has a
    file of at least [threshold] bytes has a total size of at least
    [threshold] bytes. *)
Theorem single_size_bounds_total (threshold : Z) :
  Forall (fun f => 0 <= MiDriveFile.size f) (files_or_empty subject) ->
  evalcond utilityService blurhashModule FILE_TYPE_BROWSERSAFE
    subject user roles (HasFileSizeMoreThanOrEq threshold) = Return true ->
  evalcond utilityService blurhashModule FILE_TYPE_BROWSERSAFE
    subject user roles (FileTotalSizeMoreThanOrEq threshold) = Return true.
Proof.
  unfold files_or_empty. cbn.
  destruct (files subject) as [fs |]; [| discriminate].
  intros Hpos H. injection H as H. apply existsb_exists in H.
  destruct H as (f & Hin & Hf). f_equal.
  rewrite Z.geb_leb in Hf |- *. apply Z.leb_le in Hf. apply Z.leb_le.
  pose proof (total_size_lower_bound fs Hpos f 0 Hin). lia.
Qed.

(** X11: [hasLikelyBlurhash] is monotone in its threshold: a subject
    that matches with threshold [diff] matches with every larger one. *)
Theorem likely_blurhash_monotone (hash : string) (diff diff' : Z) :
  diff <= diff' ->
  evalcond utilityService blurhashModule FILE_TYPE_BROWSERSAFE
    subject user roles (HasLikelyBlurhash hash diff) = Return true ->
  evalcond utilityService blurhashModule FILE_TYPE_BROWSERSAFE
    subject user roles (HasLikelyBlurhash hash diff') = Return true.
Proof.
  intros Hle. rewrite !evalcond_hasLikelyBlurhash.
  destruct (decode blurhashModule hash 5 5) as [k | e]; [| discriminate].
  intros H. injection H as H. f_equal.
  apply existsb_exists in H. destruct H as (f & Hin & Hf).
  apply existsb_exists. exists f. split; [exact Hin |].
  unfold file_contributes in Hf |- *.
  destruct (MiDriveFile.blurhash f) as [b |]; [| discriminate].
  destruct (decode blurhashModule b 5 5) as [d | e]; [| discriminate].
  destruct (blurhash_distance k d) as [x |]; [| discriminate].
  cbn in Hf |- *. apply Z.leb_le in Hf. apply Z.leb_le. lia.
Qed.

(** X12: with a negative threshold [hasLikelyBlurhash] never matches,
    whatever the decoder returns. *)
Theorem likely_blurhash_negative_threshold (hash : string) (diff : Z) :
  diff < 0 ->
  evalcond utilityService blurhashModule FILE_TYPE_BROWSERSAFE
    subject user roles (HasLikelyBlurhash hash diff) = Return false.
Proof.
  intros Hneg. rewrite evalcond_hasLikelyBlurhash.
  destruct (decode blurhashModule hash 5 5) as [k | e]; [| reflexivity].
  f_equal. destruct (existsb _ _) eqn:H; [| reflexivity].
  apply existsb_exists in H. destruct H as (f & _ & Hf).
  unfold file_contributes in Hf.
  destruct (MiDriveFile.blurhash f) as [b |]; [| discriminate].
  destruct (decode blurhashModule b 5 5) as [d | e]; [| discriminate].
  destruct (blurhash_distance k d) as [x |] eqn:Hx; [| discriminate].
  cbn in Hf. apply Z.leb_le in Hf.
  apply reduce_from_lower_bound in Hx. lia.
Qed.

(** X13: a file whose perceptual hash is the target hash itself matches
    at every threshold that is not negative, provided the hash decodes. *)
Theorem likely_blurhash_same_hash (hash : string) (diff : Z)
    (k : list Z) (f : MiDriveFile.t) :
  0 <= diff ->
  decode blurhashModule hash 5 5 = Return k ->
  In f (files_or_empty subject) ->
  MiDriveFile.blurhash f = Some hash ->
  evalcond utilityService blurhashModule FILE_TYPE_BROWSERSAFE
    subject user roles (HasLikelyBlurhash hash diff) = Return true.
Proof.
  intros Hdiff Hk Hin Hf. rewrite evalcond_hasLikelyBlurhash, Hk.
  f_equal. apply existsb_exists. exists f. split; [exact Hin |].
  unfold file_contributes. rewrite Hf, Hk.
  rewrite blurhash_distance_sum by lia.
  rewrite summed_abs_difference_diag. cbn. apply Z.leb_le. exact Hdiff.
Qed.

(** X14: [hasHashtagMatchOf] has no failure handling of its own.  The
    hashtags are tried in order; when the matcher answers [false] on
    the first ones and then throws, the leaf is [false] even if a later
    hashtag would match, and when it then answers [true], the leaf is
    [true] and the later hashtags are not tried. *)
Theorem hashtag_match_first_outcome (value h : string)
    (before after : list string) :
  hashtags subject = before ++ h :: after ->
  (forall h', In h' before ->
     isKeyWordIncluded utilityService h' [value] = Return false) ->
  (forall e,
      isKeyWordIncluded utilityService h [value] = Throw e ->
      evalcond utilityService blurhashModule FILE_TYPE_BROWSERSAFE
        subject user roles (HasHashtagMatchOf value) = Return false)
  /\ (isKeyWordIncluded utilityService h [value] = Return true ->
      evalcond utilityService blurhashModule FILE_TYPE_BROWSERSAFE
        subject user roles (HasHashtagMatchOf value) = Return true).
Proof.
  intros Htags Hbefore.
  assert (Hsome :
    JsArray.some (fun h => isKeyWordIncluded utilityService h [value])
      (hashtags subject)
    = b <- isKeyWordIncluded utilityService h [value] ;;
      if b then Return true
      else JsArray.some
             (fun h => isKeyWordIncluded utilityService h [value]) after).
  { rewrite Htags. clear Htags.
    induction before as [| h' before IH]; [reflexivity |].
    cbn [app JsArray.some]. rewrite (Hbefore h') by (left; reflexivity).
    cbn [bind]. apply IH. intros h'' Hin. apply Hbefore. right. exact Hin. }
  split.
  - intros e He. cbn [evalcond evalcond_switch]. rewrite Hsome, He.
    reflexivity.
  - intros Ht. cbn [evalcond evalcond_switch]. rewrite Hsome, Ht.
    reflexivity.
Qed.
End LeafLaws.

(** ** What the verdict depends on *)



Lemma leaves_all_true (formula : ProhibitedNoteFormulaValue) :
  leaves_all (fun _ => true) formula = true.
Proof.
  induction formula as [values IH | values IH | value IH | leaf Hs]
    using formula_structural_ind; cbn [leaves_all].
  - apply forallb_forall. rewrite Forall_forall in IH. exact IH.
  - apply forallb_forall. rewrite Forall_forall in IH. exact IH.
  - exact IH.
  - destruct leaf; try discriminate Hs; reflexivity.
Qed.

Section Dependencies.
Variable utilityService : UtilityService.
Variable blurhashModule : Blurhash.
Variable FILE_TYPE_BROWSERSAFE : list string.

(** X16: an absent file list and an empty file list give the same
    verdict on every formula in which [hasFileSizeLessThan] does not
    occur. *)
Theorem absent_or_empty_files (subject : InspectionSubject) (user : MiUser.t)
    (roles : list MiRole.t) (formula : ProhibitedNoteFormulaValue) :
  leaves_all not_hasFileSizeLessThan formula = true ->
  evalcond utilityService blurhashModule FILE_TYPE_BROWSERSAFE
    (with_files subject None) user roles formula
  = evalcond utilityService blurhashModule FILE_TYPE_BROWSERSAFE
      (with_files subject (Some [])) user roles formula.
Proof.
  apply evalcond_congruence. intros leaf Hs Hok.
  destruct leaf; try discriminate Hs; try discriminate Hok;
    try rewrite !evalcond_hasLikelyBlurhash; reflexivity.
Qed.

(** X17: the verdict depends on the role list only through the set of
    role ids: two role lists with the same ids, in any order and with
    any repetitions, give the same verdict on every formula. *)
Theorem roles_as_id_set (subject : InspectionSubject) (user : MiUser.t)
    (roles roles' : list MiRole.t) (formula : ProhibitedNoteFormulaValue) :
  (forall id, In id (map MiRole.id roles) <-> In id (map MiRole.id roles')) ->
  evalcond utilityService blurhashModule FILE_TYPE_BROWSERSAFE
    subject user roles formula
  = evalcond utilityService blurhashModule FILE_TYPE_BROWSERSAFE
      subject user roles' formula.
Proof.
  intros Hids.
  assert (Hmem : forall (rs : list MiRole.t) (id : string),
             existsb (fun r => (MiRole.id r =? id)%string) rs = true
             <-> In id (map MiRole.id rs)).
  { intros rs id. rewrite existsb_exists, in_map_iff.
    split; intros (r & H1 & H2).
    - exists r. apply String.eqb_eq in H2. auto.
    - exists r. split; [exact H2 | apply String.eqb_eq; exact H1]. }
  apply (evalcond_congruence utilityService blurhashModule
           FILE_TYPE_BROWSERSAFE _ _ _ _ _ _ (fun _ => true));
    [| apply leaves_all_true ].
  intros leaf Hs _.
  destruct leaf; try discriminate Hs;
    try rewrite !evalcond_hasLikelyBlurhash; try reflexivity.
  cbn. f_equal. apply eq_true_iff_eq. rewrite !Hmem. apply Hids.
Qed.

(** X18: the evaluator reads the subject's mentions only through their
    number, its reply and renote only through their presence, and the
    user only through handle and display name: subjects and users that
    agree on these, on the text, the files and the hashtags give the
    same verdict on every formula. *)
Theorem verdict_reads_only (subject subject' : InspectionSubject)
    (user user' : MiUser.t) (roles : list MiRole.t)
    (formula : ProhibitedNoteFormulaValue) :
  text subject = text subject' ->
  present (reply subject) = present (reply subject') ->
  present (renote subject) = present (renote subject') ->
  files subject = files subject' ->
  List.length (mentions subject) = List.length (mentions subject') ->
  hashtags subject = hashtags subject' ->
  MiUser.username user = MiUser.username user' ->
  MiUser.name user = MiUser.name user' ->
  evalcond utilityService blurhashModule FILE_TYPE_BROWSERSAFE
    subject user roles formula
  = evalcond utilityService blurhashModule FILE_TYPE_BROWSERSAFE
      subject' user' roles formula.
Proof.
  intros Htext Hreply Hrenote Hfiles Hmentions Htags Hname Hdisplay.
  apply (evalcond_congruence utilityService blurhashModule
           FILE_TYPE_BROWSERSAFE _ _ _ _ _ _ (fun _ => true));
    [| apply leaves_all_true ].
  intros leaf Hs _.
  destruct leaf; try discriminate Hs;
    try rewrite !evalcond_hasLikelyBlurhash;
    unfold files_or_empty;
    cbn [evalcond evalcond_switch]; unfold length;
    rewrite <- ?Htext, <- ?Hfiles, <- ?Hmentions, <- ?Htags, <- ?Hname,
      <- ?Hdisplay;
    try reflexivity.
  - destruct (reply subject), (reply subject');
      try discriminate Hreply; reflexivity.
  - destruct (reply subject), (reply subject');
      try discriminate Hreply; reflexivity.
  - destruct (renote subject), (renote subject');
      try discriminate Hrenote; reflexivity.
Qed.
End Dependencies.

(** ** Runs of the gate *)

Section GateRuns.
Variable metaService : MetaService.
Variable cacheService : CacheService.
Variable roleService : RoleService.
Variable utilityService : UtilityService.
Variable blurhashModule : Blurhash.
Variable FILE_TYPE_BROWSERSAFE : list string.
Variable subject : InspectionSubject.

(** X19: with a configured formula and lookups that return, the gate
    returns the evaluator's verdict on the fetched formula, the looked-up
    user and roles, after exactly three service calls in this order: the
    configuration fetch, the user lookup and the role lookup, both for
    the subject's [userId]. *)
Theorem gate_configured_run (log : list Call) (meta : MiMeta)
    (user : MiUser.t) (roles : list MiRole.t) :
  fetch metaService = Return meta ->
  truthy (formula_type (prohibitedNotePattern meta)) = true ->
  findUserById cacheService (userId subject) = Return user ->
  getUserRoles roleService (userId subject) = Return roles ->
  isProhibitedNote metaService cacheService roleService utilityService
    blurhashModule FILE_TYPE_BROWSERSAFE subject log
  = (evalcond utilityService blurhashModule FILE_TYPE_BROWSERSAFE
       subject user roles (prohibitedNotePattern meta),
     log ++ [ MetaService_fetch;
              CacheService_findUserById (userId subject);
              RoleService_getUserRoles (userId subject) ]).
Proof.
  intros Hmeta Hset Huser Hroles.
  unfold isProhibitedNote, then_, await. rewrite Hmeta. cbn zeta.
  rewrite Hset, Huser, Hroles. rewrite <- !app_assoc. reflexivity.
Qed.

(** X20: the gate masks no lookup failure and stops at the first one.
    A failing configuration fetch is rethrown with no lookup made; with
    a configured formula, a failing user lookup is rethrown without the
    role lookup being made, and a failing role lookup is rethrown. *)
Theorem gate_rethrows (log : list Call) (e : error) :
  (fetch metaService = Throw e ->
   isProhibitedNote metaService cacheService roleService utilityService
     blurhashModule FILE_TYPE_BROWSERSAFE subject log
   = (Throw e, log ++ [MetaService_fetch]))
  /\ (forall meta,
        fetch metaService = Return meta ->
        truthy (formula_type (prohibitedNotePattern meta)) = true ->
        findUserById cacheService (userId subject) = Throw e ->
        isProhibitedNote metaService cacheService roleService utilityService
          blurhashModule FILE_TYPE_BROWSERSAFE subject log
        = (Throw e,
           log ++ [ MetaService_fetch;
                    CacheService_findUserById (userId subject) ]))
  /\ (forall meta user,
        fetch metaService = Return meta ->
        truthy (formula_type (prohibitedNotePattern meta)) = true ->
        findUserById cacheService (userId subject) = Return user ->
        getUserRoles roleService (userId subject) = Throw e ->
        isProhibitedNote metaService cacheService roleService utilityService
          blurhashModule FILE_TYPE_BROWSERSAFE subject log
        = (Throw e,
           log ++ [ MetaService_fetch;
                    CacheService_findUserById (userId subject);
                    RoleService_getUserRoles (userId subject) ])).
Proof.
  split; [| split].
  - intros Hmeta. unfold isProhibitedNote, then_, await.
    rewrite Hmeta. reflexivity.
  - intros meta Hmeta Hset Huser. unfold isProhibitedNote, then_, await.
    rewrite Hmeta. cbn zeta. rewrite Hset, Huser, <- !app_assoc.
    reflexivity.
  - intros meta user Hmeta Hset Huser Hroles.
    unfold isProhibitedNote, then_, await.
    rewrite Hmeta. cbn zeta. rewrite Hset, Huser, Hroles, <- !app_assoc.
    reflexivity.
Qed.

(** X21: a formula of any recognized kind, the constants [true] and
    [false] included, is a configured formula: the gate does not take
    its fast path and looks the user up. *)
Theorem recognized_formula_is_configured (log : list Call) (meta : MiMeta) :
  fetch metaService = Return meta ->
  recognized (prohibitedNotePattern meta) = true ->
  truthy (formula_type (prohibitedNotePattern meta)) = true
  /\ In (CacheService_findUserById (userId subject))
       (snd (isProhibitedNote metaService cacheService roleService
               utilityService blurhashModule FILE_TYPE_BROWSERSAFE
               subject log)).
Proof.
  intros Hmeta Hrec.
  assert (Hset : truthy (formula_type (prohibitedNotePattern meta)) = true).
  { destruct (prohibitedNotePattern meta); try reflexivity.
    unfold recognized in Hrec. cbn [formula_type] in Hrec |- *.
    destruct type as [s |]; [| discriminate Hrec].
    destruct s; [discriminate Hrec | reflexivity]. }
  split; [exact Hset |].
  unfold isProhibitedNote, then_, await. rewrite Hmeta. cbn zeta.
  rewrite Hset.
  destruct (findUserById cacheService (userId subject)) as [user | e1].
  - destruct (getUserRoles roleService (userId subject)) as [roles | e2];
      cbn [snd]; rewrite !in_app_iff; cbn; auto.
  - cbn [snd]. rewrite !in_app_iff. cbn. auto.
Qed.
End GateRuns.

(** ** Instances of the further properties *)

Section MoreInstances.
Import Examples MoreExamples.

Lemma single_size_bounds_total_witness :
  evalcond exactMatcher tableDecoder safeTypes
    (note (Some [file 600 None; file 500 None])) alice []
    (FileTotalSizeMoreThanOrEq 550) = Return true.
Proof.
  apply (single_size_bounds_total exactMatcher tableDecoder safeTypes
           (note (Some [file 600 None; file 500 None])) alice [] 550).
  - repeat constructor; cbn; lia.
  - reflexivity.
Defined.

Lemma likely_blurhash_monotone_witness :
  evalcond exactMatcher tableDecoder safeTypes
    (note (Some [file 20 (Some "dim")])) alice []
    (HasLikelyBlurhash "dark" 9) = Return true.
Proof.
  apply (likely_blurhash_monotone exactMatcher tableDecoder safeTypes
           (note (Some [file 20 (Some "dim")])) alice [] "dark" 6 9).
  - lia.
  - reflexivity.
Defined.

Lemma likely_blurhash_negative_threshold_witness :
  evalcond exactMatcher tableDecoder safeTypes
    (note (Some [file 20 (Some "dark")])) alice []
    (HasLikelyBlurhash "dark" (-1)) = Return false.
Proof.
  apply (likely_blurhash_negative_threshold exactMatcher tableDecoder
           safeTypes (note (Some [file 20 (Some "dark")])) alice []
           "dark" (-1)).
  lia.
Defined.

Lemma likely_blurhash_same_hash_witness :
  evalcond exactMatcher tableDecoder safeTypes
    (note (Some [file 10 None; file 20 (Some "dim")])) alice []
    (HasLikelyBlurhash "dim" 0) = Return true.
Proof.
  apply (likely_blurhash_same_hash exactMatcher tableDecoder safeTypes
           (note (Some [file 10 None; file 20 (Some "dim")])) alice []
           "dim" 0 [1; 2; 0; 7] (file 20 (Some "dim"))).
  - lia.
  - reflexivity.
  - right. left. reflexivity.
  - reflexivity.
Defined.

(** The matcher throws on ["bad"], which comes before the matching
    hashtag ["cat"]: the leaf is [false]. *)
Lemma hashtag_match_first_outcome_witness :
  evalcond pickyMatcher tableDecoder safeTypes
    (tagged ["dog"; "bad"; "cat"]) bob [] (HasHashtagMatchOf "cat")
  = Return false.
Proof.
  refine (proj1
            (hashtag_match_first_outcome pickyMatcher tableDecoder safeTypes
               (tagged ["dog"; "bad"; "cat"]) bob [] "cat" "bad"
               ["dog"] ["cat"] eq_refl _)
            (Error "matcher failed") eq_refl).
  intros h' [<- | []]. reflexivity.
Defined.

Lemma without_files_no_file_leaf_witness :
  Forall
    (fun leaf =>
       evalcond exactMatcher tableDecoder safeTypes (note (Some [])) alice []
         leaf = Return false)
    [ HasFileSizeMoreThanOrEq 0; HasFileMD5Is "d41d8cd9"; HasBrowserInsafe;
      HasPictures; HasLikelyBlurhash "dark" 1000 ].
Proof.
  apply (without_files_no_file_leaf exactMatcher tableDecoder safeTypes
           (note (Some [])) alice [] 0 1000 "d41d8cd9" "dark").
  reflexivity.
Defined.


Lemma absent_or_empty_files_witness :
  evalcond exactMatcher tableDecoder safeTypes
    (with_files (note None) None) alice []
    (And [Not HasFiles; FileCountIs 0; Or [HasPictures; FileTotalSizeLessThan 1]])
  = evalcond exactMatcher tableDecoder safeTypes
      (with_files (note None) (Some [])) alice []
      (And [Not HasFiles; FileCountIs 0; Or [HasPictures; FileTotalSizeLessThan 1]]).
Proof.
  apply (absent_or_empty_files exactMatcher tableDecoder safeTypes
           (note None) alice []).
  reflexivity.
Defined.

Lemma roles_as_id_set_witness :
  evalcond exactMatcher tableDecoder safeTypes (note None) alice
    [{| MiRole.id := "a" |}; {| MiRole.id := "b" |}] (RoleAssignedOf "b")
  = evalcond exactMatcher tableDecoder safeTypes (note None) alice
      [{| MiRole.id := "b" |}; {| MiRole.id := "a" |}; {| MiRole.id := "a" |}]
      (RoleAssignedOf "b").
Proof.
  apply (roles_as_id_set exactMatcher tableDecoder safeTypes (note None) alice
           [{| MiRole.id := "a" |}; {| MiRole.id := "b" |}]
           [{| MiRole.id := "b" |}; {| MiRole.id := "a" |};
            {| MiRole.id := "a" |}]).
  intros id. cbn. tauto.
Defined.

(** Two subjects that differ in author, in the note replied to and in
    the mentioned account, and two users that differ in id. *)
Lemma verdict_reads_only_witness :
  evalcond exactMatcher tableDecoder safeTypes
    {| userId := "u1"; text := None; reply := Some {| MiNote.id := "n1" |};
       renote := None; files := None;
       mentions := [{| Mention.username := "carol"; Mention.host := None |}];
       hashtags := [] |}
    alice [] (And [HasMentions; MentionCountIs 1; NameIsDefault])
  = evalcond exactMatcher tableDecoder safeTypes
      {| userId := "u2"; text := None; reply := Some {| MiNote.id := "n2" |};
         renote := None; files := None;
         mentions :=
           [{| Mention.username := "dave"; Mention.host := Some "example.org" |}];
         hashtags := [] |}
      {| MiUser.id := "u9"; MiUser.username := "alice"; MiUser.name := Some "" |}
      [] (And [HasMentions; MentionCountIs 1; NameIsDefault]).
Proof.
  apply verdict_reads_only; reflexivity.
Defined.

Lemma gate_configured_run_witness :
  isProhibitedNote (configured (Not HasText)) oneUser noRoles exactMatcher
    tableDecoder safeTypes (tagged []) []
  = (Return true,
     [ MetaService_fetch; CacheService_findUserById "u1";
       RoleService_getUserRoles "u1" ]).
Proof.
  apply (gate_configured_run (configured (Not HasText)) oneUser noRoles
           exactMatcher tableDecoder safeTypes (tagged []) []
           {| prohibitedNotePattern := Not HasText |} bob []);
    reflexivity.
Defined.

(** The constant [false] is a configured formula: with a failing user
    lookup the gate throws instead of returning [false]. *)
Lemma recognized_formula_is_configured_witness :
  truthy (formula_type FFalse) = true
  /\ In (CacheService_findUserById "u1")
       (snd (isProhibitedNote (configured FFalse) noUsers noRoles
               exactMatcher tableDecoder safeTypes (tagged []) [])).
Proof.
  apply (recognized_formula_is_configured (configured FFalse) noUsers noRoles
           exactMatcher tableDecoder safeTypes (tagged []) []
           {| prohibitedNotePattern := FFalse |});
    reflexivity.
Defined.
End MoreInstances.
